(** * ZwavePlugin: the Fauxmo plugin for the Z-Way REST API (zwaveplugin.py)

    A shallow embedding of [ZwavePlugin] and of the part of Python and of the
    [requests] interface it touches, followed by the properties of its three
    operations [on], [off] and [get_state]. *)

From stdpp Require Import gmap strings list pretty.
From Stdlib Require Import ZArith String Ascii Bool.

Set Warnings "-register-all".
Set Default Proof Using "Type".
Local Open Scope Z_scope.
Local Open Scope string_scope.
Local Open Scope list_scope.

(** ** Python values *)

(** What [json] decoding can produce, and so what [get_state] may hand back:
    [None], booleans, integers, floats, strings, lists and dicts with string
    keys.  A float is carried as its [repr]; the plugin never inspects one. *)
Inductive PyVal : Type :=
  | PyNone
  | PyBool (b : bool)
  | PyInt (n : Z)
  | PyFloat (repr : string)
  | PyStr (s : string)
  | PyList (l : list PyVal)
  | PyDict (d : gmap string PyVal).

(** Exceptions, all of them instances of [Exception]: the errors [requests]
    raises (by class name, e.g. ConnectionError, Timeout), the decoding error
    of [Response.json] and the two built-in errors the operators below raise.
    Exits that are not [Exception]s (KeyboardInterrupt, SystemExit) are
    outside the model. *)
Inductive PyExc : Type :=
  | RequestException (cls msg : string)
  | JSONDecodeError (msg : string)
  | TypeError
  | KeyError (key : string).

Inductive Result (A : Type) : Type :=
  | Val (a : A)
  | Exn (e : PyExc).
Arguments Val {A} a.
Arguments Exn {A} e.

(** [str(n)] for an [int]. *)
Definition str (n : Z) : string := pretty n.

(** Truth value of an [Optional[str]]: [None] and the empty string are false. *)
Definition truthy (o : option string) : bool :=
  match o with
  | None => false
  | Some EmptyString => false
  | Some (String _ _) => true
  end.

(** [fmt % o] for a format with the single directive [%s], by the text before
    the directive: [None] prints as its name. *)
Definition percent_s (before : string) (o : option string) : string :=
  before +:+ match o with Some t => t | None => "None" end.

(** [v == lit] for a string literal [lit]: only an equal [str] compares equal. *)
Definition py_eq_str (v : PyVal) (lit : string) : bool :=
  match v with
  | PyStr s => String.eqb s lit
  | _ => false
  end.

(** [needle in hay] on two strings is the substring test. *)
Definition is_substring (needle hay : string) : bool :=
  match String.index 0 needle hay with
  | Some _ => true
  | None => false
  end.

(** [key in v]: key membership on a dict, element membership on a list,
    substring on a string, [TypeError] on anything that is not a container. *)
Definition py_in (key : string) (v : PyVal) : Result bool :=
  match v with
  | PyDict d => Val (bool_decide (is_Some (d !! key)))
  | PyList l => Val (existsb (fun x => py_eq_str x key) l)
  | PyStr s => Val (is_substring key s)
  | PyNone | PyBool _ | PyInt _ | PyFloat _ => Exn TypeError
  end.

(** [v[key]] for a string [key]: a dict is looked up; a list or a string takes
    integer indices only; the rest is not subscriptable. *)
Definition py_getitem (v : PyVal) (key : string) : Result PyVal :=
  match v with
  | PyDict d =>
      match d !! key with
      | Some x => Val x
      | None => Exn (KeyError key)
      end
  | _ => Exn TypeError
  end.

(** ** The [requests] interface *)

(** [requests.get(url, headers=..., auth=...)]: an absent keyword is [None]. *)
Record Request : Type := mkRequest {
  url : string;
  headers : option (gmap string string);
  auth : option (string * option string)
}.

(** A [requests.Response] as far as the plugin reads it.  [json] is the outcome
    of the method [resp.json()], the library's decoder run on the body: the
    decoded value, or the exception it raises. *)
Record Response : Type := mkResponse {
  status_code : Z;
  text : string;
  json : Result PyVal
}.

(** What one call of [requests.get] comes to. *)
Inductive NetOutcome : Type :=
  | Responds (resp : Response)
  | Fails (e : PyExc).

(** ** Logging *)

Inductive Level : Type := INFO | ERROR.

(** The pieces of an f-string: literal text and interpolated values. *)
Inductive Fragment : Type :=
  | Lit (s : string)
  | FStr (s : string)
  | FInt (n : Z)
  | FBool (b : bool)
  | FVal (v : PyVal)
  | FExc (e : PyExc).

Definition LogRecord : Type := Level * list Fragment.

(** ** Module constants *)

Definition ZwavePlugin_version : string := "v0.5".

Definition dquote : string := String (ascii_of_nat 34) EmptyString.
Definition quoted (s : string) : string := dquote +:+ s +:+ dquote.

(** The body of a successful command, as the server sends it. *)
Definition response_ok : string :=
  "{" +:+ quoted "data" +:+ ":null," +:+ quoted "code" +:+ ":200,"
      +:+ quoted "message" +:+ ":" +:+ quoted "200 OK" +:+ ","
      +:+ quoted "error" +:+ ":null}".

(** ** The object and the world around it *)

(** The attributes [__init__] sets on [self]. *)
Record ZwavePlugin : Type := mkZwavePlugin {
  zwave_host : string;
  zwave_port : Z;
  zwave_user : string;
  zwave_pass : option string;
  zwave_auth : option string;
  zwave_device : string;
  fake_state : bool
}.

(** Keyword arguments of [__init__]; [None] is a keyword left out. *)
Record InitArgs : Type := mkInitArgs {
  arg_name : string;
  arg_port : Z;
  arg_device : string;
  arg_zwave_host : option string;
  arg_zwave_port : option Z;
  arg_zwave_user : option string;
  arg_zwave_pass : option (option string);
  arg_zwave_auth : option (option string);
  arg_fake_state : option bool
}.

(** The state a method runs in: the plugin's own attributes, the part of the
    object that belongs to the base class [FauxmoPlugin], every call of
    [requests.get] made so far (oldest first) and the log. *)
Record State (Base : Type) : Type := mkState {
  self : ZwavePlugin;
  super : Base;
  sent : list Request;
  log : list LogRecord
}.
Arguments mkState {Base} _ _ _ _.
Arguments self {Base} _.
Arguments super {Base} _.
Arguments sent {Base} _.
Arguments log {Base} _.

(** The state after one more call of [requests.get], and after one more log
    record. *)
Definition record_request {Base} (rq : Request) (s : State Base) : State Base :=
  mkState (self s) (super s) (sent s ++ [rq]) (log s).

Definition record_log {Base} (r : LogRecord) (s : State Base) : State Base :=
  mkState (self s) (super s) (sent s) (log s ++ [r]).

(** ** Statements and calls *)

(** How a statement ends: it falls through with a value, executes [return], or
    raises. *)
Inductive Outcome (R A : Type) : Type :=
  | Normal (a : A)
  | Returned (r : R)
  | Raised (e : PyExc).
Arguments Normal {R A} a.
Arguments Returned {R A} r.
Arguments Raised {R A} e.

Definition Stmt (Base R A : Type) : Type := State Base -> Outcome R A * State Base.
Definition Call (Base R : Type) : Type := State Base -> Result R * State Base.

Section Statements.
Context {Base R : Type}.

Definition ret {A} (a : A) : Stmt Base R A := fun s => (Normal a, s).

Definition bind {A B} (c : Stmt Base R A) (k : A -> Stmt Base R B) : Stmt Base R B :=
  fun s =>
    match c s with
    | (Normal a, s') => k a s'
    | (Returned r, s') => (Returned r, s')
    | (Raised e, s') => (Raised e, s')
    end.

(** [return r] *)
Definition return_ {A} (r : R) : Stmt Base R A := fun s => (Returned r, s).

(** [raise e], and the lifting of an operator that may raise. *)
Definition lift {A} (x : Result A) : Stmt Base R A :=
  fun s =>
    match x with
    | Val a => (Normal a, s)
    | Exn e => (Raised e, s)
    end.

(** [self.f] *)
Definition attr {A} (f : ZwavePlugin -> A) : Stmt Base R A :=
  fun s => (Normal (f (self s)), s).

(** [self.f = v], through the update [upd] of the record. *)
Definition setattr (upd : ZwavePlugin -> ZwavePlugin) : Stmt Base R unit :=
  fun s => (Normal tt, mkState (upd (self s)) (super s) (sent s) (log s)).

(** [if b: body] with no [else]. *)
Definition when (b : bool) (body : Stmt Base R unit) : Stmt Base R unit :=
  if b then body else ret tt.

(** [try: body except Exception as e: handler e] *)
Definition try_except {A} (body : Stmt Base R A) (handler : PyExc -> Stmt Base R A)
  : Stmt Base R A :=
  fun s =>
    match body s with
    | (Raised e, s') => handler e s'
    | other => other
    end.

(** Calling a function from inside a statement. *)
Definition call {R'} (f : Call Base R') : Stmt Base R R' :=
  fun s =>
    match f s with
    | (Val r, s') => (Normal r, s')
    | (Exn e, s') => (Raised e, s')
    end.

(** A function body.  Every path of the bodies below ends in [return] or
    raises, so a body cannot fall through. *)
Definition def (body : Stmt Base R Empty_set) : Call Base R :=
  fun s =>
    match body s with
    | (Normal a, _) => match a return (Result R * State Base) with end
    | (Returned r, s') => (Val r, s')
    | (Raised e, s') => (Exn e, s')
    end.

Definition logger (lvl : Level) (msg : list Fragment) : Stmt Base R unit :=
  fun s => (Normal tt, record_log (lvl, msg) s).

Definition logger_info : list Fragment -> Stmt Base R unit := logger INFO.
Definition logger_error : list Fragment -> Stmt Base R unit := logger ERROR.

End Statements.

Declare Scope py_scope.
Delimit Scope py_scope with py.
Notation "x <- c ;; k" := (bind c (fun x => k))
  (at level 100, c at next level, right associativity) : py_scope.
Notation "c ;; k" := (bind c (fun _ => k))
  (at level 100, right associativity) : py_scope.
Local Open Scope py_scope.

(** ** The plugin *)

Section Plugin.
Context {Base : Type}.

(** The base class [FauxmoPlugin] belongs to the host framework: its
    constructor updates the base part of the object, and its [get_state]
    reads the last state the framework recorded from that part. *)
Variable super_init : string -> Z -> Base -> Base.
Variable super_get_state : Base -> Result PyVal.

(** The remote server together with the network in front of it: what a call of
    [requests.get] comes to, given the calls made before it. *)
Variable server : list Request -> Request -> NetOutcome.

(** [requests.get(url, headers=h, auth=a)] *)
Definition requests_get {R} (u : string) (h : option (gmap string string))
    (a : option (string * option string)) : Stmt Base R Response :=
  fun s =>
    let rq := mkRequest u h a in
    match server (sent s) rq with
    | Responds resp => (Normal resp, record_request rq s)
    | Fails e => (Raised e, record_request rq s)
    end.

(** [super().__init__(name=name, port=port)] *)
Definition call_super_init {R} (name : string) (port : Z) : Stmt Base R unit :=
  fun s => (Normal tt, mkState (self s) (super_init name port (super s)) (sent s) (log s)).

(** [super().get_state()] *)
Definition call_super_get_state {R} : Stmt Base R PyVal :=
  fun s => lift (super_get_state (super s)) s.

(** [resp.json()] *)
Definition call_json {R} (resp : Response) : Stmt Base R PyVal := lift (json resp).

Definition __init__ (a : InitArgs) : Call Base unit :=
  def (
    let name := arg_name a in
    let port := arg_port a in
    let device := arg_device a in
    let zwave_host' := default "localhost" (arg_zwave_host a) in
    let zwave_port' := default 8083 (arg_zwave_port a) in
    let zwave_user' := default "admin" (arg_zwave_user a) in
    let zwave_pass' := default None (arg_zwave_pass a) in
    let zwave_auth' := default None (arg_zwave_auth a) in
    let fake_state' := default false (arg_fake_state a) in
    setattr (fun o => mkZwavePlugin zwave_host' (zwave_port o) (zwave_user o)
                        (zwave_pass o) (zwave_auth o) (zwave_device o) (fake_state o));;
    setattr (fun o => mkZwavePlugin (zwave_host o) zwave_port' (zwave_user o)
                        (zwave_pass o) (zwave_auth o) (zwave_device o) (fake_state o));;
    setattr (fun o => mkZwavePlugin (zwave_host o) (zwave_port o) zwave_user'
                        (zwave_pass o) (zwave_auth o) (zwave_device o) (fake_state o));;
    setattr (fun o => mkZwavePlugin (zwave_host o) (zwave_port o) (zwave_user o)
                        zwave_pass' (zwave_auth o) (zwave_device o) (fake_state o));;
    setattr (fun o => mkZwavePlugin (zwave_host o) (zwave_port o) (zwave_user o)
                        (zwave_pass o) zwave_auth' (zwave_device o) (fake_state o));;
    setattr (fun o => mkZwavePlugin (zwave_host o) (zwave_port o) (zwave_user o)
                        (zwave_pass o) (zwave_auth o) device (fake_state o));;
    setattr (fun o => mkZwavePlugin (zwave_host o) (zwave_port o) (zwave_user o)
                        (zwave_pass o) (zwave_auth o) (zwave_device o) fake_state');;
    logger_info [Lit "ZwavePlugin: "; FStr ZwavePlugin_version; Lit " ";
                 Lit "name: '"; FStr name; Lit "' device: "; FStr device; Lit " ";
                 Lit "port: "; FInt port; Lit " fake_state: "; FBool fake_state'];;
    call_super_init name port;;
    return_ tt).

Definition _ZwaveCmd (cmd : string) : Call Base bool :=
  def (
    host <- attr zwave_host;;
    port <- attr zwave_port;;
    device <- attr zwave_device;;
    let url :=
      "http://"
      +:+ host
      +:+ ":"
      +:+ str port
      +:+ "/ZAutomation/api/v1/devices/"
      +:+ device
      +:+ "/command/"
      +:+ cmd in
    logger_info [Lit "ZwavePlugin: Getting "; FStr url; Lit " "];;
    resp <- try_except
              (tok <- attr zwave_auth;;
               if truthy tok then
                 requests_get url
                   (Some {[ "Authorization" := percent_s "Bearer ZWAYSession/" tok ]})
                   None
               else
                 user <- attr zwave_user;;
                 pass <- attr zwave_pass;;
                 requests_get url None (Some (user, pass)))
              (fun e =>
                 logger_error [Lit "ZwavePlugin: "; FExc e];;
                 return_ false);;
    when (Z.eqb (status_code resp) 200)
      (when (String.eqb (text resp) response_ok)
         (return_ true));;
    logger_error [Lit "ZwavePlugin: "; FInt (status_code resp); Lit " ";
                  FStr (text resp); Lit " "];;
    return_ false).

Definition on : Call Base bool :=
  def (r <- call (_ZwaveCmd "on");; return_ r).

Definition off : Call Base bool :=
  def (r <- call (_ZwaveCmd "off");; return_ r).

Definition get_state : Call Base PyVal :=
  def (
    fake <- attr fake_state;;
    when fake
      (logger_info [Lit "ZwavePlugin: return fake state latest_action"];;
       r <- call_super_get_state;;
       return_ r);;
    host <- attr zwave_host;;
    port <- attr zwave_port;;
    device <- attr zwave_device;;
    let url :=
      "http://"
      +:+ host
      +:+ ":"
      +:+ str port
      +:+ "/ZAutomation/api/v1/devices/"
      +:+ device in
    logger_info [Lit "ZwavePlugin: Getting "; FStr url; Lit " "];;
    resp <- try_except
              (tok <- attr zwave_auth;;
               if truthy tok then
                 requests_get url
                   (Some {[ "Authorization" := percent_s "Bearer ZWAYSession/" tok ]})
                   None
               else
                 user <- attr zwave_user;;
                 pass <- attr zwave_pass;;
                 requests_get url None (Some (user, pass)))
              (fun e =>
                 logger_error [Lit "ZwavePlugin: "; FExc e];;
                 return_ (PyStr "unknown"));;
    when (Z.eqb (status_code resp) 200)
      (resp_json <- call_json resp;;
       has_data <- lift (py_in "data" resp_json);;
       when has_data
         (data <- lift (py_getitem resp_json "data");;
          has_metrics <- lift (py_in "metrics" data);;
          when has_metrics
            (data <- lift (py_getitem resp_json "data");;
             metrics <- lift (py_getitem data "metrics");;
             has_level <- lift (py_in "level" metrics);;
             when has_level
               (data <- lift (py_getitem resp_json "data");;
                metrics <- lift (py_getitem data "metrics");;
                text <- lift (py_getitem metrics "level");;
                if py_eq_str text "off" || py_eq_str text "close"
                   || py_eq_str text "closed" then
                  return_ (PyStr "off")
                else if py_eq_str text "on" || py_eq_str text "open" then
                  return_ (PyStr "on")
                else
                  logger_info [Lit "ZwavePlugin: unknown level: "; FVal text; Lit " "];;
                  return_ text))));;
    logger_error [Lit "ZwavePlugin: "; FInt (status_code resp); Lit " ";
                  FStr (text resp); Lit " "];;
    return_ (PyStr "unknown")).

End Plugin.

(** * Properties *)

(** ** What a run comes to *)

(** The two URLs, as the methods build them. *)
Definition device_url (o : ZwavePlugin) : string :=
  "http://" +:+ zwave_host o +:+ ":" +:+ str (zwave_port o)
    +:+ "/ZAutomation/api/v1/devices/" +:+ zwave_device o.

Definition command_url (o : ZwavePlugin) (cmd : string) : string :=
  "http://" +:+ zwave_host o +:+ ":" +:+ str (zwave_port o)
    +:+ "/ZAutomation/api/v1/devices/" +:+ zwave_device o +:+ "/command/" +:+ cmd.

(** The call of [requests.get] the shared [try] block makes for a URL. *)
Definition request_for (o : ZwavePlugin) (u : string) : Request :=
  match zwave_auth o with
  | Some (String a t) =>
      mkRequest u (Some {[ "Authorization" := "Bearer ZWAYSession/" +:+ String a t ]}) None
  | _ => mkRequest u None (Some (zwave_user o, zwave_pass o))
  end.

Definition getting (u : string) : LogRecord :=
  (INFO, [Lit "ZwavePlugin: Getting "; FStr u; Lit " "]).

Definition failed (e : PyExc) : LogRecord :=
  (ERROR, [Lit "ZwavePlugin: "; FExc e]).

Definition rejected (resp : Response) : LogRecord :=
  (ERROR, [Lit "ZwavePlugin: "; FInt (status_code resp); Lit " "; FStr (text resp); Lit " "]).

Definition fake_reply : LogRecord :=
  (INFO, [Lit "ZwavePlugin: return fake state latest_action"]).

Definition unknown_level (x : PyVal) : LogRecord :=
  (INFO, [Lit "ZwavePlugin: unknown level: "; FVal x; Lit " "]).

(** The walk of [get_state] down a decoded body: the value under
    data.metrics.level, [None] where a membership test is false, or the
    exception an operator raises on the way. *)
Definition find_level (v : PyVal) : Result (option PyVal) :=
  match py_in "data" v with
  | Exn e => Exn e
  | Val false => Val None
  | Val true =>
      match py_getitem v "data" with
      | Exn e => Exn e
      | Val data =>
          match py_in "metrics" data with
          | Exn e => Exn e
          | Val false => Val None
          | Val true =>
              match py_getitem data "metrics" with
              | Exn e => Exn e
              | Val metrics =>
                  match py_in "level" metrics with
                  | Exn e => Exn e
                  | Val false => Val None
                  | Val true =>
                      match py_getitem metrics "level" with
                      | Exn e => Exn e
                      | Val x => Val (Some x)
                      end
                  end
              end
          end
      end
  end.

Definition reads_off (x : PyVal) : bool :=
  py_eq_str x "off" || py_eq_str x "close" || py_eq_str x "closed".

Definition reads_on (x : PyVal) : bool :=
  py_eq_str x "on" || py_eq_str x "open".

(** The state [get_state] reports for a raw level. *)
Definition normalize (x : PyVal) : PyVal :=
  if reads_off x then PyStr "off"
  else if reads_on x then PyStr "on"
  else x.

(** ** Vocabulary of the statements *)

(** A response a command takes for success. *)
Definition accepted (resp : Response) : Prop :=
  status_code resp = 200 /\ text resp = response_ok.

(** The decoded body holds [x] under the nested path data.metrics.level. *)
Definition has_level (v x : PyVal) : Prop :=
  exists d m k : gmap string PyVal,
    v = PyDict d /\ d !! "data" = Some (PyDict m)
    /\ m !! "metrics" = Some (PyDict k) /\ k !! "level" = Some x.

(** A membership test along the path is false: [data] is not in the decoded
    body, or [metrics] is not in its [data], or [level] is not in that
    [metrics]. *)
Definition lacks_level (v : PyVal) : Prop :=
  py_in "data" v = Val false
  \/ exists data, py_getitem v "data" = Val data
       /\ (py_in "metrics" data = Val false
           \/ exists metrics, py_getitem data "metrics" = Val metrics
                /\ py_in "level" metrics = Val false).

(** The four cases in which a state query is said to answer unknown: the
    request raises, the status is not 200, the body does not decode, or the
    decoded body does not hold the nested path. *)
Definition unknown_cases (out : NetOutcome) : Prop :=
  match out with
  | Fails _ => True
  | Responds resp =>
      status_code resp <> 200
      \/ (exists e, json resp = Exn e)
      \/ (exists v, json resp = Val v /\ ~ exists x, has_level v x)
  end.

(** A request carries credentials: the bearer header or a basic-auth pair. *)
Definition authenticated (rq : Request) : Prop :=
  (exists h, headers rq = Some h /\ is_Some (h !! "Authorization"))
  \/ is_Some (auth rq).

(** How a request is to carry them: a token that is set and not empty goes
    into the bearer header and nothing else is sent; with no token the
    request takes the configured user and password for basic auth. *)
Definition token_rule (o : ZwavePlugin) (rq : Request) : Prop :=
  (forall tok, zwave_auth o = Some tok -> tok <> EmptyString ->
     headers rq = Some {[ "Authorization" := "Bearer ZWAYSession/" +:+ tok ]}
     /\ auth rq = None)
  /\ (zwave_auth o = None \/ zwave_auth o = Some EmptyString ->
      headers rq = None /\ auth rq = Some (zwave_user o, zwave_pass o)).

(** ** Fixtures for the concrete runs *)

(** The first device of the example configuration, with a session token. *)
Definition hall_light : ZwavePlugin :=
  mkZwavePlugin "localhost" 8083 "admin" None (Some "token")
    "HTTP_Device_switchBinary_62" false.

(** The same device with [fake_state] on. *)
Definition fake_light : ZwavePlugin :=
  mkZwavePlugin "localhost" 8083 "admin" None (Some "token")
    "HTTP_Device_switchBinary_62" true.

(** The GETs [hall_light] sends: a command and a state query. *)
Definition hall_light_on : Request :=
  mkRequest
    "http://localhost:8083/ZAutomation/api/v1/devices/HTTP_Device_switchBinary_62/command/on"
    (Some {[ "Authorization" := "Bearer ZWAYSession/token" ]}) None.

Definition hall_light_query : Request :=
  mkRequest
    "http://localhost:8083/ZAutomation/api/v1/devices/HTTP_Device_switchBinary_62"
    (Some {[ "Authorization" := "Bearer ZWAYSession/token" ]}) None.

(** The host side reduced to the last state it recorded. *)
Definition tracked (last : string) : Result PyVal := Val (PyStr last).

Definition start (o : ZwavePlugin) : State string := mkState o "off" [] [].

(** A server that answers every request alike. *)
Definition replying (resp : Response) : list Request -> Request -> NetOutcome :=
  fun _ _ => Responds resp.

Definition unreachable : list Request -> Request -> NetOutcome :=
  fun _ _ => Fails (RequestException "ConnectionError" "Connection refused").

Definition command_done : Response :=
  mkResponse 200 response_ok
    (Val (PyDict {[ "data" := PyNone; "code" := PyInt 200;
                    "message" := PyStr "200 OK"; "error" := PyNone ]})).

(** A device report whose level is [x]. *)
Definition report (body : string) (x : PyVal) : Response :=
  mkResponse 200 body
    (Val (PyDict {[ "data" := PyDict {[ "metrics" := PyDict {[ "level" := x ]} ]} ]})).

Definition level_body (x : string) : string :=
  "{" +:+ quoted "data" +:+ ":{" +:+ quoted "metrics" +:+ ":{"
      +:+ quoted "level" +:+ ":" +:+ quoted x +:+ "}}}".

(** A page that is not JSON, and a report whose [data] is null. *)
Definition not_json : Response :=
  mkResponse 200 "<html>Bad Gateway</html>" (Exn (JSONDecodeError "Expecting value")).

Definition null_data : Response :=
  mkResponse 200 ("{" +:+ quoted "data" +:+ ":null}")
    (Val (PyDict {[ "data" := PyNone ]})).

(** One step of a run: the statement combinators, and nothing else, unfolded. *)
Ltac step := cbv beta iota zeta.
Ltac run :=
  unfold call_json, logger_info, logger_error;
  unfold bind, when, lift, ret, return_, logger; step.

Section Runs.
Context {Base : Type}.
Variable super_get_state : Base -> Result PyVal.
Variable server : list Request -> Request -> NetOutcome.

(** The body of the [try] block, the same in both operations. *)
Definition authenticated_get {R} (u : string) : Stmt Base R Response :=
  tok <- attr zwave_auth;;
  if truthy tok then
    requests_get server u
      (Some {[ "Authorization" := percent_s "Bearer ZWAYSession/" tok ]})
      None
  else
    user <- attr zwave_user;;
    pass <- attr zwave_pass;;
    requests_get server u None (Some (user, pass)).

Lemma authenticated_get_run {R} (u : string) (s : State Base) :
  authenticated_get (R := R) u s =
    (match server (sent s) (request_for (self s) u) with
     | Responds resp => Normal resp
     | Fails e => Raised e
     end, record_request (request_for (self s) u) s).
Proof.
  unfold authenticated_get, request_for, bind, attr, requests_get.
  destruct (zwave_auth (self s)) as [[|a t]|]; simpl;
    now destruct (server _ _).
Qed.

Lemma ZwaveCmd_run (cmd : string) (s : State Base) :
  let u := command_url (self s) cmd in
  let rq := request_for (self s) u in
  let s1 := record_request rq (record_log (getting u) s) in
  _ZwaveCmd server cmd s =
    match server (sent s) rq with
    | Fails e => (Val false, record_log (failed e) s1)
    | Responds resp =>
        if Z.eqb (status_code resp) 200 && String.eqb (text resp) response_ok
        then (Val true, s1)
        else (Val false, record_log (rejected resp) s1)
    end.
Proof.
  intros u rq s1.
  unfold _ZwaveCmd, def, bind at 1 2 3 4, attr at 1 2 3, logger_info, logger. step.
  fold (command_url (self s) cmd). fold u. fold (getting u).
  match goal with
  | |- context [try_except ?b _] => change b with (authenticated_get (R := bool) u)
  end.
  unfold bind at 1, try_except. rewrite authenticated_get_run.
  change (self (record_log (getting u) s)) with (self s).
  change (sent (record_log (getting u) s)) with (sent s).
  fold rq. fold s1.
  destruct (server (sent s) rq) as [resp|e]; [|reflexivity].
  unfold bind, when, return_, ret, logger_error, logger.
  destruct (Z.eqb (status_code resp) 200); [|reflexivity].
  now destruct (String.eqb (text resp) response_ok).
Qed.

Lemma get_state_run (s : State Base) :
  let u := device_url (self s) in
  let rq := request_for (self s) u in
  let s1 := record_request rq (record_log (getting u) s) in
  get_state super_get_state server s =
    if fake_state (self s) then
      (super_get_state (super s), record_log fake_reply s)
    else
      match server (sent s) rq with
      | Fails e => (Val (PyStr "unknown"), record_log (failed e) s1)
      | Responds resp =>
          if Z.eqb (status_code resp) 200 then
            match json resp with
            | Exn e => (Exn e, s1)
            | Val v =>
                match find_level v with
                | Exn e => (Exn e, s1)
                | Val None => (Val (PyStr "unknown"), record_log (rejected resp) s1)
                | Val (Some x) =>
                    (Val (normalize x),
                     if reads_off x || reads_on x then s1
                     else record_log (unknown_level x) s1)
                end
            end
          else (Val (PyStr "unknown"), record_log (rejected resp) s1)
      end.
Proof.
  intros u rq s1.
  unfold get_state, def. unfold bind at 1, attr at 1.
  destruct (fake_state (self s)).
  { unfold bind, when, logger_info, logger, call_super_get_state, lift, return_.
    change (super (record_log _ s)) with (super s).
    now destruct (super_get_state (super s)). }
  unfold bind at 1, when at 1, ret.
  unfold bind at 1 2 3 4, attr at 1 2 3, logger_info, logger. step.
  fold (device_url (self s)). fold u. fold (getting u).
  match goal with
  | |- context [try_except ?b _] => change b with (authenticated_get (R := PyVal) u)
  end.
  unfold bind at 1, try_except. rewrite authenticated_get_run.
  change (self (record_log (getting u) s)) with (self s).
  change (sent (record_log (getting u) s)) with (sent s).
  fold rq. fold s1.
  destruct (server (sent s) rq) as [resp|e]; [|reflexivity].
  run. destruct (Z.eqb (status_code resp) 200); [|reflexivity].
  destruct (json resp) as [v|e]; [|reflexivity].
  unfold find_level, normalize, reads_off, reads_on. step.
  destruct (py_in "data" v) as [[|]|e]; [|reflexivity|reflexivity]. step.
  destruct (py_getitem v "data") as [data|e]; [|reflexivity]. step.
  destruct (py_in "metrics" data) as [[|]|e]; [|reflexivity|reflexivity]. step.
  destruct (py_getitem data "metrics") as [metrics|e]; [|reflexivity]. step.
  destruct (py_in "level" metrics) as [[|]|e]; [|reflexivity|reflexivity]. step.
  destruct (py_getitem metrics "level") as [x|e]; [|reflexivity]. step.
  destruct (py_eq_str x "off" || py_eq_str x "close" || py_eq_str x "closed"); [reflexivity|].
  now destruct (py_eq_str x "on" || py_eq_str x "open").
Qed.

Lemma on_run (s : State Base) : on server s = _ZwaveCmd server "on" s.
Proof.
  unfold on, def, bind, call, return_.
  now destruct (_ZwaveCmd server "on" s) as [[r|e] s'].
Qed.

Lemma off_run (s : State Base) : off server s = _ZwaveCmd server "off" s.
Proof.
  unfold off, def, bind, call, return_.
  now destruct (_ZwaveCmd server "off" s) as [[r|e] s'].
Qed.

Lemma ZwaveCmd_sent (cmd : string) (s : State Base) :
  sent (snd (_ZwaveCmd server cmd s))
  = sent s ++ [request_for (self s) (command_url (self s) cmd)].
Proof.
  rewrite ZwaveCmd_run. cbv zeta.
  destruct (server _ _) as [resp|e]; [|reflexivity].
  now destruct (_ && _).
Qed.

Lemma ZwaveCmd_self (cmd : string) (s : State Base) :
  self (snd (_ZwaveCmd server cmd s)) = self s.
Proof.
  rewrite ZwaveCmd_run. cbv zeta.
  destruct (server _ _) as [resp|e]; [|reflexivity].
  now destruct (_ && _).
Qed.

Lemma get_state_sent (s : State Base) :
  sent (snd (get_state super_get_state server s))
  = if fake_state (self s) then sent s
    else sent s ++ [request_for (self s) (device_url (self s))].
Proof.
  rewrite get_state_run. cbv zeta.
  destruct (fake_state (self s)); [reflexivity|].
  destruct (server _ _) as [resp|e]; [|reflexivity].
  destruct (Z.eqb _ _); [|reflexivity].
  destruct (json resp) as [v|e]; [|reflexivity].
  destruct (find_level v) as [[x|]|e]; try reflexivity.
  now destruct (_ || _).
Qed.

Lemma get_state_self (s : State Base) :
  self (snd (get_state super_get_state server s)) = self s.
Proof.
  rewrite get_state_run. cbv zeta.
  destruct (fake_state (self s)); [reflexivity|].
  destruct (server _ _) as [resp|e]; [|reflexivity].
  destruct (Z.eqb _ _); [|reflexivity].
  destruct (json resp) as [v|e]; [|reflexivity].
  destruct (find_level v) as [[x|]|e]; try reflexivity.
  now destruct (_ || _).
Qed.

Lemma ZwaveCmd_result (cmd : string) (s : State Base) :
  fst (_ZwaveCmd server cmd s)
  = match server (sent s) (request_for (self s) (command_url (self s) cmd)) with
    | Fails _ => Val false
    | Responds resp =>
        Val (Z.eqb (status_code resp) 200 && String.eqb (text resp) response_ok)
    end.
Proof.
  rewrite ZwaveCmd_run. cbv zeta.
  destruct (server _ _) as [resp|e]; [|reflexivity].
  now destruct (_ && _).
Qed.

Lemma py_eq_str_spec (x : PyVal) (lit : string) :
  py_eq_str x lit = true <-> x = PyStr lit.
Proof.
  destruct x; simpl; try (split; [discriminate | discriminate]).
  rewrite String.eqb_eq. split; congruence.
Qed.

Lemma normalize_unknown (x : PyVal) :
  normalize x = PyStr "unknown" <-> x = PyStr "unknown".
Proof.
  unfold normalize, reads_off, reads_on. split.
  - destruct (_ || _ || _); [discriminate|].
    destruct (_ || _); [discriminate | trivial].
  - now intros ->.
Qed.

(** The request a run recorded is the one the shared block builds. *)
Lemma issued_is (l : list Request) (rq rq' : Request) :
  l ++ [rq'] = l ++ [rq] -> rq = rq'.
Proof. intros H. apply app_inv_head in H. congruence. Qed.

Lemma find_level_has (v x : PyVal) : has_level v x -> find_level v = Val (Some x).
Proof.
  intros (d & m & k & -> & Hd & Hm & Hk).
  unfold find_level, py_in, py_getitem.
  rewrite Hd; simpl. rewrite Hm; simpl. now rewrite Hk.
Qed.

Lemma py_getitem_in (v x : PyVal) (key : string) :
  py_getitem v key = Val x -> py_in key v = Val true.
Proof.
  destruct v as [| | | | | l | d]; try discriminate. simpl.
  now destruct (d !! key).
Qed.

Lemma find_level_lacks (v : PyVal) : lacks_level v -> find_level v = Val None.
Proof.
  unfold find_level.
  intros [-> | (data & Hd & [Hm | (metrics & Hm & Hl)])]; [reflexivity | |].
  - now rewrite (py_getitem_in _ _ _ Hd), Hd, Hm.
  - now rewrite (py_getitem_in _ _ _ Hd), Hd, (py_getitem_in _ _ _ Hm), Hm, Hl.
Qed.

End Runs.

(** ** The claims *)

Section Claims.
Context {Base : Type}.
Variable super_init : string -> Z -> Base -> Base.
Variable super_get_state : Base -> Result PyVal.
Variable server : list Request -> Request -> NetOutcome.

Lemma request_for_url (o : ZwavePlugin) (u : string) : url (request_for o u) = u.
Proof. unfold request_for. now destruct (zwave_auth o) as [[|a t]|]. Qed.

Lemma request_for_token_rule (o : ZwavePlugin) (u : string) :
  token_rule o (request_for o u).
Proof.
  unfold token_rule, request_for. split.
  - intros tok -> Hne. destruct tok as [|a t]; [congruence|]. now split.
  - intros [-> | ->]; now split.
Qed.

(** C1: when the server answers the request of a command ([_ZwaveCmd], which
    [on] and [off] delegate to) with a response, the command returns true if
    and only if the status code is 200 and the body equals [response_ok];
    for every other status or body it returns false. *)
Theorem ZwaveCmd_true_iff_response_ok (cmd : string) (s : State Base)
    (rq : Request) (resp : Response) :
  sent (snd (_ZwaveCmd server cmd s)) = sent s ++ [rq] ->
  server (sent s) rq = Responds resp ->
  (fst (_ZwaveCmd server cmd s) = Val true <-> accepted resp)
  /\ (fst (_ZwaveCmd server cmd s) = Val false <-> ~ accepted resp)
  /\ on server s = _ZwaveCmd server "on" s
  /\ off server s = _ZwaveCmd server "off" s.
Proof.
  intros Hsent Hresp.
  rewrite ZwaveCmd_sent in Hsent. apply issued_is in Hsent. subst rq.
  split; [|split; [|split; [apply on_run | apply off_run]]];
    rewrite ZwaveCmd_result, Hresp; unfold accepted;
    destruct (Z.eqb_spec (status_code resp) 200) as [Hs|Hs];
    destruct (String.eqb_spec (text resp) response_ok) as [Ht|Ht];
    simpl; split; intros H;
    first [ discriminate | reflexivity | now split | now destruct H
          | now intros [? ?] | now elim H ].
Qed.

(** C5: every GET of a command or of a state query follows the token rule:
    with a non-empty token it carries exactly the header
    Authorization: Bearer ZWAYSession/token and no basic auth, whatever user
    and password are configured; with no token it uses basic auth with the
    configured user and password. *)
Theorem requests_follow_token_rule (s : State Base) :
  (forall cmd, exists rq,
      sent (snd (_ZwaveCmd server cmd s)) = sent s ++ [rq]
      /\ token_rule (self s) rq)
  /\ (fake_state (self s) = false ->
      exists rq,
        sent (snd (get_state super_get_state server s)) = sent s ++ [rq]
        /\ token_rule (self s) rq).
Proof.
  split.
  - intros cmd. eexists. split; [apply ZwaveCmd_sent | apply request_for_token_rule].
  - intros Hfake. eexists. split; [|apply request_for_token_rule].
    rewrite get_state_sent, Hfake. reflexivity.
Qed.

(** C7: a command issues its GET against
    http://host:port/ZAutomation/api/v1/devices/deviceRef/command/cmd and a
    state query against the same URL without the /command/cmd suffix; for
    device HTTP_Device_switchBinary_62, host localhost and port 8083, [on]
    targets exactly
    http://localhost:8083/ZAutomation/api/v1/devices/HTTP_Device_switchBinary_62/command/on. *)
Theorem urls_as_documented (s : State Base) :
  (forall cmd, exists rq,
      sent (snd (_ZwaveCmd server cmd s)) = sent s ++ [rq]
      /\ url rq = "http://" +:+ zwave_host (self s) +:+ ":" +:+ str (zwave_port (self s))
                    +:+ "/ZAutomation/api/v1/devices/" +:+ zwave_device (self s)
                    +:+ "/command/" +:+ cmd)
  /\ (fake_state (self s) = false ->
      exists rq,
        sent (snd (get_state super_get_state server s)) = sent s ++ [rq]
        /\ url rq = "http://" +:+ zwave_host (self s) +:+ ":" +:+ str (zwave_port (self s))
                      +:+ "/ZAutomation/api/v1/devices/" +:+ zwave_device (self s))
  /\ (forall user pass tok fake,
        let o := mkZwavePlugin "localhost" 8083 user pass tok
                   "HTTP_Device_switchBinary_62" fake in
        map url (sent (snd (on server (mkState o (super s) (sent s) (log s)))))
        = map url (sent s)
          ++ ["http://localhost:8083/ZAutomation/api/v1/devices/HTTP_Device_switchBinary_62/command/on"]).
Proof.
  split; [|split].
  - intros cmd. eexists. split; [apply ZwaveCmd_sent | apply request_for_url].
  - intros Hfake. eexists. split; [|apply request_for_url].
    rewrite get_state_sent, Hfake. reflexivity.
  - intros user pass tok fake o.
    rewrite on_run, ZwaveCmd_sent, map_app. cbn [map sent self].
    now rewrite request_for_url.
Qed.

(** C8: when the request of a command fails in transport, the command logs the
    error and returns false, having called [requests.get] once and no more. *)
Theorem ZwaveCmd_transport_failure (cmd : string) (s : State Base) :
  exists rq,
    sent (snd (_ZwaveCmd server cmd s)) = sent s ++ [rq]
    /\ forall e, server (sent s) rq = Fails e ->
         fst (_ZwaveCmd server cmd s) = Val false
         /\ last (log (snd (_ZwaveCmd server cmd s)))
            = Some (ERROR, [Lit "ZwavePlugin: "; FExc e]).
Proof.
  eexists. split; [apply ZwaveCmd_sent|].
  intros e He. rewrite ZwaveCmd_run. cbv zeta. rewrite He. simpl.
  split; [reflexivity|]. now rewrite last_snoc.
Qed.

(** C6: with [fake_state] true a state query calls [requests.get] not once and
    returns what [super().get_state()] returns, the state the host framework
    recorded last, whatever the remote server would do. *)
Theorem fake_state_skips_network (s : State Base) :
  fake_state (self s) = true ->
  fst (get_state super_get_state server s) = super_get_state (super s)
  /\ sent (snd (get_state super_get_state server s)) = sent s.
Proof.
  intros Hfake. rewrite get_state_sent, get_state_run. cbv zeta.
  now rewrite Hfake.
Qed.

(** C4: on a 200 response whose decoded body holds data.metrics.level, a state
    query maps the levels off, close and closed to off, the levels on and
    open to on, and returns every other level as it is. *)
Theorem get_state_normalizes_level (s : State Base) (rq : Request)
    (resp : Response) (v x : PyVal) :
  sent (snd (get_state super_get_state server s)) = sent s ++ [rq] ->
  server (sent s) rq = Responds resp ->
  status_code resp = 200 ->
  json resp = Val v ->
  has_level v x ->
  (x = PyStr "off" \/ x = PyStr "close" \/ x = PyStr "closed" ->
     fst (get_state super_get_state server s) = Val (PyStr "off"))
  /\ (x = PyStr "on" \/ x = PyStr "open" ->
      fst (get_state super_get_state server s) = Val (PyStr "on"))
  /\ (x <> PyStr "off" -> x <> PyStr "close" -> x <> PyStr "closed" ->
      x <> PyStr "on" -> x <> PyStr "open" ->
      fst (get_state super_get_state server s) = Val x).
Proof.
  intros Hsent Hresp Hstatus Hjson Hlevel.
  rewrite get_state_sent in Hsent.
  destruct (fake_state (self s)) eqn:Hfake.
  { rewrite <- (app_nil_r (sent s)) in Hsent at 1.
    apply app_inv_head in Hsent. discriminate. }
  apply issued_is in Hsent. subst rq.
  rewrite get_state_run. cbv zeta.
  rewrite Hfake, Hresp, Hstatus, Hjson, (find_level_has _ _ Hlevel). simpl.
  unfold normalize, reads_off, reads_on.
  split; [|split].
  - intros [-> | [-> | ->]]; reflexivity.
  - intros [-> | ->]; reflexivity.
  - intros H1 H2 H3 H4 H5.
    rewrite <- py_eq_str_spec in H1, H2, H3, H4, H5.
    apply not_true_is_false in H1, H2, H3, H4, H5.
    now rewrite H1, H2, H3, H4, H5.
Qed.

(** C3, as amended: a state query with [fake_state] false returns unknown when
    the request raises, when the status is not 200, and when the body of a
    200 response decodes to a value in which a membership test along data,
    metrics, level is false; when the decoded body holds data.metrics.level,
    it returns unknown exactly when that level is itself the string unknown.
    Nothing is said of a 200 response whose body does not decode or whose
    path runs into a value that is no container. *)
Theorem get_state_unknown_cases (s : State Base) (rq : Request) :
  fake_state (self s) = false ->
  sent (snd (get_state super_get_state server s)) = sent s ++ [rq] ->
  match server (sent s) rq with
  | Fails _ => fst (get_state super_get_state server s) = Val (PyStr "unknown")
  | Responds resp =>
      (status_code resp <> 200 ->
         fst (get_state super_get_state server s) = Val (PyStr "unknown"))
      /\ (status_code resp = 200 -> forall v, json resp = Val v ->
            (lacks_level v ->
               fst (get_state super_get_state server s) = Val (PyStr "unknown"))
            /\ (forall x, has_level v x ->
                  (fst (get_state super_get_state server s) = Val (PyStr "unknown")
                   <-> x = PyStr "unknown")))
  end.
Proof.
  intros Hfake Hsent.
  rewrite get_state_sent, Hfake in Hsent. apply issued_is in Hsent. subst rq.
  rewrite get_state_run. cbv zeta. rewrite Hfake.
  destruct (server _ _) as [resp|e]; [|reflexivity].
  split.
  - intros Hs. apply Z.eqb_neq in Hs. now rewrite Hs.
  - intros -> v ->. simpl. split.
    + intros Hl. now rewrite (find_level_lacks _ Hl).
    + intros x Hx. rewrite (find_level_has _ _ Hx). simpl.
      rewrite <- normalize_unknown. split; congruence.
Qed.

(** C9: no operation writes an attribute that [__init__] set, and two calls of
    [on] in a row issue the same request, URL and headers alike; answered
    alike they return alike, and answered with the success response they
    return true both times. *)
Theorem operations_keep_configuration (s : State Base) :
  self (snd (on server s)) = self s
  /\ self (snd (off server s)) = self s
  /\ self (snd (get_state super_get_state server s)) = self s
  /\ exists rq,
       let s1 := snd (on server s) in
       let s2 := snd (on server s1) in
       sent s1 = sent s ++ [rq]
       /\ sent s2 = sent s1 ++ [rq]
       /\ (server (sent s) rq = server (sent s1) rq ->
           fst (on server s) = fst (on server s1))
       /\ (forall resp resp',
             server (sent s) rq = Responds resp -> accepted resp ->
             server (sent s1) rq = Responds resp' -> accepted resp' ->
             fst (on server s) = Val true /\ fst (on server s1) = Val true).
Proof.
  rewrite !on_run, off_run.
  split; [apply ZwaveCmd_self|]. split; [apply ZwaveCmd_self|].
  split; [apply get_state_self|].
  exists (request_for (self s) (command_url (self s) "on")). cbv zeta.
  rewrite !on_run, !ZwaveCmd_result, !ZwaveCmd_sent, !ZwaveCmd_self.
  split; [reflexivity|]. split; [reflexivity|]. split.
  - now intros ->.
  - intros resp resp' -> [Hs Ht] -> [Hs' Ht'].
    now rewrite Hs, Ht, Hs', Ht', Z.eqb_refl, String.eqb_refl.
Qed.

(** C10: no request goes out without credentials.  Each GET carries the bearer
    header or a basic-auth pair, and with [zwave_auth] unset or empty both
    operations use basic auth with the configured user and password; a plugin
    constructed with neither user, password nor token sends user admin and
    password [None]. *)
Theorem no_unauthenticated_request (s : State Base) :
  (forall cmd, exists rq,
      sent (snd (_ZwaveCmd server cmd s)) = sent s ++ [rq]
      /\ authenticated rq
      /\ (zwave_auth (self s) = None \/ zwave_auth (self s) = Some EmptyString ->
          headers rq = None /\ auth rq = Some (zwave_user (self s), zwave_pass (self s))))
  /\ (fake_state (self s) = false ->
      exists rq,
        sent (snd (get_state super_get_state server s)) = sent s ++ [rq]
        /\ authenticated rq
        /\ (zwave_auth (self s) = None \/ zwave_auth (self s) = Some EmptyString ->
            headers rq = None /\ auth rq = Some (zwave_user (self s), zwave_pass (self s))))
  /\ (forall a : InitArgs,
        let s' := snd (__init__ super_init a s) in
        zwave_user (self s') = default "admin" (arg_zwave_user a)
        /\ zwave_pass (self s') = default None (arg_zwave_pass a)
        /\ zwave_auth (self s') = default None (arg_zwave_auth a)
        /\ sent s' = sent s
        /\ (arg_zwave_user a = None -> arg_zwave_pass a = None ->
            arg_zwave_auth a = None ->
            forall cmd,
              sent (snd (_ZwaveCmd server cmd s'))
              = sent s ++ [mkRequest (command_url (self s') cmd) None
                             (Some ("admin", None))])).
Proof.
  assert (Hauth : forall o u, authenticated (request_for o u)).
  { intros o u. unfold authenticated, request_for.
    destruct (zwave_auth o) as [[|c t]|]; simpl; [eauto | | eauto].
    left. eexists. split; [reflexivity|]. rewrite lookup_singleton_eq. eauto. }
  split; [|split].
  - intros cmd. eexists. split; [apply ZwaveCmd_sent|].
    split; [apply Hauth | apply request_for_token_rule].
  - intros Hfake. eexists. split; [rewrite get_state_sent, Hfake; reflexivity|].
    split; [apply Hauth | apply request_for_token_rule].
  - intros a s'. repeat (split; [reflexivity|]).
    intros Hu Hp Ha cmd. rewrite ZwaveCmd_sent.
    subst s'. unfold request_for. cbn [__init__ def bind setattr logger_info logger
      call_super_init return_ snd self sent zwave_auth zwave_user zwave_pass
      record_log].
    now rewrite Hu, Hp, Ha.
Qed.

End Claims.

(** ** Concrete runs *)

(** C2: a state query is to hand back a string for every response and never
    raise.  The code does not keep to it: [resp.json()] and the membership
    tests run outside the [try], so a 200 response whose body is not JSON
    raises the decoding error, and one whose [data] is null raises a
    [TypeError]. *)
Theorem get_state_raises_on_unexpected_body :
  fst (get_state tracked (replying not_json) (start hall_light))
  = Exn (JSONDecodeError "Expecting value")
  /\ fst (get_state tracked (replying null_data) (start hall_light))
     = Exn TypeError.
Proof. split; vm_compute; reflexivity. Qed.

Lemma report_has_level (body : string) (x : PyVal) :
  forall v, json (report body x) = Val v -> has_level v x.
Proof.
  intros v [= <-]. do 3 eexists. split; [reflexivity|].
  repeat split; apply lookup_singleton_eq.
Qed.

(** The claim C3 fails as it stands: a report whose level is the string unknown
    is answered unknown, though the request did not raise, the status is 200,
    the body decodes and holds data.metrics.level; and a body that does not
    decode is one of the four cases, yet the query raises instead of
    answering unknown. *)
Lemma get_state_unknown_outside_cases :
  (fst (get_state tracked
          (replying (report (level_body "unknown") (PyStr "unknown")))
          (start hall_light)) = Val (PyStr "unknown")
   /\ ~ unknown_cases (Responds (report (level_body "unknown") (PyStr "unknown"))))
  /\ (unknown_cases (Responds not_json)
      /\ fst (get_state tracked (replying not_json) (start hall_light))
         <> Val (PyStr "unknown")).
Proof.
  split; split.
  - vm_compute; reflexivity.
  - intros [H | [[e H] | (v & Hv & H)]]; [now apply H | discriminate |].
    apply H. exists (PyStr "unknown"). now apply (report_has_level (level_body "unknown")).
  - right; left. now eexists.
  - vm_compute. discriminate.
Qed.

(** With the server out of reach [on] returns false after one request and an
    error record; answered with success twice, it returns true twice. *)
Example on_unreachable :
  on unreachable (start hall_light)
  = (Val false,
     mkState hall_light "off" [hall_light_on]
       [getting (url hall_light_on);
        failed (RequestException "ConnectionError" "Connection refused")]).
Proof. reflexivity. Qed.

Example on_twice :
  let s1 := snd (on (replying command_done) (start hall_light)) in
  fst (on (replying command_done) (start hall_light)) = Val true
  /\ fst (on (replying command_done) s1) = Val true
  /\ sent (snd (on (replying command_done) s1)) = [hall_light_on; hall_light_on]
  /\ self (snd (on (replying command_done) s1)) = hall_light.
Proof. repeat split. Qed.

Example init_defaults :
  self (snd (__init__ (fun _ _ b => b)
               (mkInitArgs "hall light" 49918 "HTTP_Device_switchBinary_62"
                  None None None None None None)
               (start hall_light)))
  = mkZwavePlugin "localhost" 8083 "admin" None None
      "HTTP_Device_switchBinary_62" false.
Proof. reflexivity. Qed.

(** A command answered with the success response returns true. *)
Lemma ZwaveCmd_true_iff_response_ok_witness :
  sent (snd (_ZwaveCmd (replying command_done) "on" (start hall_light)))
  = [hall_light_on]
  /\ fst (_ZwaveCmd (replying command_done) "on" (start hall_light)) = Val true.
Proof.
  split; [reflexivity|].
  apply (ZwaveCmd_true_iff_response_ok (replying command_done) "on"
           (start hall_light) hall_light_on command_done);
    [reflexivity | reflexivity | split; reflexivity].
Defined.

(** With [fake_state] on and the server out of reach, the query returns the
    state the host recorded and sends nothing. *)
Lemma fake_state_skips_network_witness :
  fst (get_state tracked unreachable (start fake_light)) = Val (PyStr "off")
  /\ sent (snd (get_state tracked unreachable (start fake_light))) = [].
Proof.
  apply (fake_state_skips_network tracked unreachable (start fake_light)).
  reflexivity.
Defined.

(** A report of level open reads as on. *)
Lemma get_state_normalizes_level_witness :
  fst (get_state tracked (replying (report (level_body "open") (PyStr "open")))
         (start hall_light)) = Val (PyStr "on").
Proof.
  apply (get_state_normalizes_level tracked
           (replying (report (level_body "open") (PyStr "open")))
           (start hall_light) hall_light_query
           (report (level_body "open") (PyStr "open"))
           (PyDict {[ "data" := PyDict {[ "metrics" := PyDict {[ "level" := PyStr "open" ]} ]} ]})
           (PyStr "open"));
    [reflexivity | reflexivity | reflexivity | reflexivity
    | now apply (report_has_level (level_body "open")) | now right ].
Defined.

(** With the server out of reach the query answers unknown. *)
Lemma get_state_unknown_cases_witness :
  fst (get_state tracked unreachable (start hall_light)) = Val (PyStr "unknown").
Proof.
  exact (get_state_unknown_cases tracked unreachable (start hall_light)
           hall_light_query eq_refl eq_refl).
Defined.

(** * Further properties of the operations *)

(** ** Guards and subscripts *)

(** A membership test raises nothing but [TypeError]; after a test that
    succeeded the subscript either finds the value in a dict or raises
    [TypeError] (on a list or a string), never [KeyError]. *)
Lemma guarded_getitem (key : string) (v : PyVal) :
  match py_in key v with
  | Exn e => e = TypeError
  | Val false => True
  | Val true =>
      match py_getitem v key with
      | Exn e => e = TypeError
      | Val x => exists d : gmap string PyVal, v = PyDict d /\ d !! key = Some x
      end
  end.
Proof.
  destruct v as [| | | | t | l | d]; simpl; trivial.
  - now destruct (is_substring key t).
  - now destruct (existsb _ l).
  - destruct (d !! key) as [x|] eqn:Hx; simpl; eauto.
Qed.

Lemma find_level_some (v x : PyVal) : find_level v = Val (Some x) -> has_level v x.
Proof.
  unfold find_level, has_level.
  pose proof (guarded_getitem "data" v) as H1.
  destruct (py_in "data" v) as [[|]|?]; try discriminate.
  destruct (py_getitem v "data") as [data|?]; try discriminate.
  destruct H1 as (d & -> & Hd).
  pose proof (guarded_getitem "metrics" data) as H2.
  destruct (py_in "metrics" data) as [[|]|?]; try discriminate.
  destruct (py_getitem data "metrics") as [metrics|?]; try discriminate.
  destruct H2 as (m & -> & Hm).
  pose proof (guarded_getitem "level" metrics) as H3.
  destruct (py_in "level" metrics) as [[|]|?]; try discriminate.
  destruct (py_getitem metrics "level") as [y|?]; try discriminate.
  destruct H3 as (k & -> & Hk).
  intros [= <-]. now exists d, m, k.
Qed.

Lemma find_level_raises (v : PyVal) (e : PyExc) :
  find_level v = Exn e -> e = TypeError.
Proof.
  unfold find_level.
  pose proof (guarded_getitem "data" v) as H1.
  destruct (py_in "data" v) as [[|]|?]; [| discriminate | congruence].
  destruct (py_getitem v "data") as [data|?]; [| congruence].
  pose proof (guarded_getitem "metrics" data) as H2.
  destruct (py_in "metrics" data) as [[|]|?]; [| discriminate | congruence].
  destruct (py_getitem data "metrics") as [metrics|?]; [| congruence].
  pose proof (guarded_getitem "level" metrics) as H3.
  destruct (py_in "level" metrics) as [[|]|?]; [| discriminate | congruence].
  destruct (py_getitem metrics "level") as [y|?]; [discriminate | congruence].
Qed.

Lemma normalize_on (x : PyVal) :
  normalize x = PyStr "on" -> x = PyStr "on" \/ x = PyStr "open".
Proof.
  unfold normalize, reads_off, reads_on.
  destruct (_ || _ || _); [discriminate|].
  destruct (py_eq_str x "on" || py_eq_str x "open") eqn:Hon.
  - intros _. apply orb_true_iff in Hon. now rewrite !py_eq_str_spec in Hon.
  - now left.
Qed.

Lemma normalize_off (x : PyVal) :
  normalize x = PyStr "off"
  -> x = PyStr "off" \/ x = PyStr "close" \/ x = PyStr "closed".
Proof.
  unfold normalize, reads_off, reads_on.
  destruct (py_eq_str x "off" || py_eq_str x "close" || py_eq_str x "closed") eqn:Hoff.
  - intros _. rewrite !orb_true_iff, !py_eq_str_spec in Hoff. tauto.
  - destruct (py_eq_str x "on" || py_eq_str x "open"); [discriminate|].
    intros H. now left.
Qed.

Lemma in_list_data (l : list PyVal) :
  existsb (fun x => py_eq_str x "data") l = true <-> In (PyStr "data") l.
Proof.
  rewrite existsb_exists. split.
  - intros (x & Hin & Hx). apply py_eq_str_spec in Hx. now subst x.
  - intros Hin. exists (PyStr "data"). now split.
Qed.

Lemma append_assoc (a b c : string) : (a +:+ b) +:+ c = a +:+ b +:+ c.
Proof.
  induction a as [|ch a IH]; [reflexivity|].
  change (String ch ((a +:+ b) +:+ c) = String ch (a +:+ b +:+ c)).
  now rewrite IH.
Qed.

Section Further.
Context {Base : Type}.
Variable super_init : string -> Z -> Base -> Base.
Variable super_get_state : Base -> Result PyVal.
Variable server : list Request -> Request -> NetOutcome.

(** X1: a command never raises.  Whatever [requests.get] comes to, a response
    of any kind or an exception of any class, [_ZwaveCmd], [on] and [off]
    return a boolean. *)
Theorem commands_never_raise (cmd : string) (s : State Base) :
  (exists b, fst (_ZwaveCmd server cmd s) = Val b)
  /\ (exists b, fst (on server s) = Val b)
  /\ (exists b, fst (off server s) = Val b).
Proof.
  rewrite on_run, off_run, !ZwaveCmd_result.
  repeat split; destruct (server _ _); eauto.
Qed.

(** X2: a command logs the URL it requests at INFO before the request, and
    returns false exactly when it then logs one ERROR record; a command that
    returns true logs nothing further. *)
Theorem ZwaveCmd_false_iff_error_logged (cmd : string) (s : State Base) :
  exists rq,
    sent (snd (_ZwaveCmd server cmd s)) = sent s ++ [rq]
    /\ let entry := (INFO, [Lit "ZwavePlugin: Getting "; FStr (url rq); Lit " "]) in
       (fst (_ZwaveCmd server cmd s) = Val true
        /\ log (snd (_ZwaveCmd server cmd s)) = log s ++ [entry])
       \/ (fst (_ZwaveCmd server cmd s) = Val false
           /\ exists msg,
               log (snd (_ZwaveCmd server cmd s)) = log s ++ [entry; (ERROR, msg)]).
Proof.
  exists (request_for (self s) (command_url (self s) cmd)).
  split; [apply ZwaveCmd_sent|]. cbv zeta.
  rewrite request_for_url, ZwaveCmd_run. cbv zeta.
  destruct (server _ _) as [resp|e].
  - destruct (_ && _); [left | right]; (split; [reflexivity|]).
    + reflexivity.
    + eexists. simpl. now rewrite <- app_assoc.
  - right. split; [reflexivity|]. eexists. simpl. now rewrite <- app_assoc.
Qed.

(** X3: a state query raises only in two ways.  With [fake_state] on it passes
    on what [super().get_state()] raises.  Otherwise the server has answered
    with status 200, and either the decoder raised that exception or a
    membership test or subscript met a value that is no dict and raised
    [TypeError]; a failed request and a status other than 200 never raise,
    and the subscripts never raise [KeyError]. *)
Theorem get_state_raises_only_after_200 (s : State Base) (e : PyExc) :
  fst (get_state super_get_state server s) = Exn e ->
  (fake_state (self s) = true /\ super_get_state (super s) = Exn e)
  \/ (fake_state (self s) = false
      /\ exists rq resp,
          sent (snd (get_state super_get_state server s)) = sent s ++ [rq]
          /\ server (sent s) rq = Responds resp
          /\ status_code resp = 200
          /\ (json resp = Exn e \/ (exists v, json resp = Val v) /\ e = TypeError)).
Proof.
  rewrite get_state_sent, get_state_run. cbv zeta.
  destruct (fake_state (self s)); [now left|].
  intros H. right. split; [reflexivity|].
  exists (request_for (self s) (device_url (self s))).
  destruct (server _ _) as [resp|e']; [|discriminate].
  exists resp. split; [reflexivity|]. split; [reflexivity|].
  destruct (Z.eqb_spec (status_code resp) 200) as [Hs|Hs]; [|discriminate].
  split; [assumption|].
  destruct (json resp) as [v|e'].
  - right. split; [now exists v|].
    destruct (find_level v) as [[x|]|e'] eqn:Hv; try discriminate.
    injection H as <-. now apply (find_level_raises v).
  - left. simpl in H. congruence.
Qed.

(** X4: a state query with [fake_state] off answers on only when the server
    reported the level on or open, and off only when it reported off, close
    or closed, in a 200 response whose decoded body holds
    data.metrics.level. *)
Theorem get_state_on_off_sound (s : State Base) :
  fake_state (self s) = false ->
  (fst (get_state super_get_state server s) = Val (PyStr "on") ->
   exists rq resp v x,
     sent (snd (get_state super_get_state server s)) = sent s ++ [rq]
     /\ server (sent s) rq = Responds resp /\ status_code resp = 200
     /\ json resp = Val v /\ has_level v x
     /\ (x = PyStr "on" \/ x = PyStr "open"))
  /\ (fst (get_state super_get_state server s) = Val (PyStr "off") ->
      exists rq resp v x,
        sent (snd (get_state super_get_state server s)) = sent s ++ [rq]
        /\ server (sent s) rq = Responds resp /\ status_code resp = 200
        /\ json resp = Val v /\ has_level v x
        /\ (x = PyStr "off" \/ x = PyStr "close" \/ x = PyStr "closed")).
Proof.
  intros Hfake. rewrite get_state_sent, get_state_run. cbv zeta. rewrite Hfake.
  split; intros H;
    exists (request_for (self s) (device_url (self s)));
    (destruct (server _ _) as [resp|e']; [|discriminate]);
    exists resp;
    (destruct (Z.eqb_spec (status_code resp) 200) as [Hs|Hs]; [|discriminate]);
    (destruct (json resp) as [v|e']; [|discriminate]);
    exists v;
    (destruct (find_level v) as [[x|]|e'] eqn:Hv; try discriminate);
    exists x; injection H as H;
    (repeat (split; [first [reflexivity | assumption | now apply find_level_some]|])).
  - now apply normalize_on.
  - now apply normalize_off.
Qed.

(** X5: on a 200 response whose decoded body is no object the query does not
    always answer unknown.  [None], a boolean and a number raise [TypeError]
    at the first membership test.  A string and a list pass the test as
    containers: the answer is unknown unless the string contains data, or the
    list has the string data among its elements, and then the subscript
    raises [TypeError].  An object without the key data answers unknown. *)
Theorem get_state_body_not_object (s : State Base) (rq : Request)
    (resp : Response) (v : PyVal) :
  sent (snd (get_state super_get_state server s)) = sent s ++ [rq] ->
  server (sent s) rq = Responds resp ->
  status_code resp = 200 ->
  json resp = Val v ->
  match v with
  | PyDict d =>
      d !! "data" = None ->
      fst (get_state super_get_state server s) = Val (PyStr "unknown")
  | PyList l =>
      (In (PyStr "data") l ->
       fst (get_state super_get_state server s) = Exn TypeError)
      /\ (~ In (PyStr "data") l ->
          fst (get_state super_get_state server s) = Val (PyStr "unknown"))
  | PyStr t =>
      fst (get_state super_get_state server s)
      = if is_substring "data" t then Exn TypeError else Val (PyStr "unknown")
  | PyNone | PyBool _ | PyInt _ | PyFloat _ =>
      fst (get_state super_get_state server s) = Exn TypeError
  end.
Proof.
  intros Hsent Hresp Hstatus Hjson.
  rewrite get_state_sent in Hsent.
  destruct (fake_state (self s)) eqn:Hfake.
  { rewrite <- (app_nil_r (sent s)) in Hsent at 1.
    apply app_inv_head in Hsent. discriminate. }
  apply issued_is in Hsent. subst rq.
  rewrite get_state_run. cbv zeta. rewrite Hfake, Hresp, Hstatus, Hjson. simpl.
  unfold find_level.
  destruct v as [| | | | t | l | d]; simpl; try reflexivity.
  - now destruct (is_substring "data" t).
  - split; intros Hin.
    + apply in_list_data in Hin. now rewrite Hin.
    + rewrite <- in_list_data in Hin. apply not_true_is_false in Hin.
      now rewrite Hin.
  - now intros ->.
Qed.

(** X6: the log tells a failed query from a level passed through.  With
    [fake_state] off, a query that fails (the request raises, the status is
    not 200, a key of the path is missing) ends its log with an ERROR record:
    the exception, or the status and the body.  A level that is none of the
    five known words is logged at INFO with the raw value, and a known level
    logs nothing after the URL. *)
Theorem get_state_log_tells_failure (s : State Base) (rq : Request) :
  fake_state (self s) = false ->
  sent (snd (get_state super_get_state server s)) = sent s ++ [rq] ->
  match server (sent s) rq with
  | Fails e =>
      last (log (snd (get_state super_get_state server s)))
      = Some (ERROR, [Lit "ZwavePlugin: "; FExc e])
  | Responds resp =>
      let rejection :=
        (ERROR, [Lit "ZwavePlugin: "; FInt (status_code resp); Lit " ";
                 FStr (text resp); Lit " "]) in
      (status_code resp <> 200 ->
         last (log (snd (get_state super_get_state server s))) = Some rejection)
      /\ (status_code resp = 200 -> forall v, json resp = Val v ->
            (lacks_level v ->
               last (log (snd (get_state super_get_state server s)))
               = Some rejection)
            /\ (forall x, has_level v x ->
                  (x <> PyStr "off" -> x <> PyStr "close" -> x <> PyStr "closed" ->
                   x <> PyStr "on" -> x <> PyStr "open" ->
                   last (log (snd (get_state super_get_state server s)))
                   = Some (INFO, [Lit "ZwavePlugin: unknown level: "; FVal x; Lit " "]))
                  /\ (x = PyStr "off" \/ x = PyStr "close" \/ x = PyStr "closed"
                      \/ x = PyStr "on" \/ x = PyStr "open" ->
                      last (log (snd (get_state super_get_state server s)))
                      = Some (INFO, [Lit "ZwavePlugin: Getting "; FStr (url rq);
                                     Lit " "]))))
  end.
Proof.
  intros Hfake Hsent.
  rewrite get_state_sent, Hfake in Hsent. apply issued_is in Hsent. subst rq.
  rewrite request_for_url, get_state_run. cbv zeta. rewrite Hfake.
  destruct (server _ _) as [resp|e]; [|simpl; now rewrite last_snoc].
  split.
  - intros Hs. apply Z.eqb_neq in Hs. rewrite Hs. simpl. now rewrite last_snoc.
  - intros Hs v ->. apply Z.eqb_eq in Hs. rewrite Hs. split.
    + intros Hl. rewrite (find_level_lacks _ Hl). simpl. now rewrite last_snoc.
    + intros x Hx. rewrite (find_level_has _ _ Hx). simpl.
      unfold reads_off, reads_on. split.
      * intros H1 H2 H3 H4 H5.
        rewrite <- py_eq_str_spec in H1, H2, H3, H4, H5.
        apply not_true_is_false in H1, H2, H3, H4, H5.
        rewrite H1, H2, H3, H4, H5. simpl. now rewrite last_snoc.
      * intros [-> | [-> | [-> | [-> | ->]]]]; simpl; now rewrite last_snoc.
Qed.

(** X7: the operations only append to the history of requests and to the log.
    A command sends one request, a query one or none, each logs at least one
    record, and the body of a command assigns nothing to the base-class part
    of the object. *)
Theorem operations_only_append (s : State Base) :
  (forall cmd,
     super (snd (_ZwaveCmd server cmd s)) = super s
     /\ (exists rq, sent (snd (_ZwaveCmd server cmd s)) = sent s ++ [rq])
     /\ (exists r rs, log (snd (_ZwaveCmd server cmd s)) = log s ++ r :: rs))
  /\ (sent (snd (get_state super_get_state server s)) = sent s
      \/ exists rq, sent (snd (get_state super_get_state server s)) = sent s ++ [rq])
  /\ (exists r rs, log (snd (get_state super_get_state server s)) = log s ++ r :: rs).
Proof.
  split; [intros cmd; split; [|split] |split].
  - rewrite ZwaveCmd_run. cbv zeta.
    destruct (server _ _) as [resp|e]; [|reflexivity]. now destruct (_ && _).
  - eexists. apply ZwaveCmd_sent.
  - rewrite ZwaveCmd_run. cbv zeta.
    destruct (server _ _) as [resp|e]; [destruct (_ && _)|]; simpl;
      rewrite <- ?app_assoc; eauto.
  - rewrite get_state_sent. destruct (fake_state (self s)); eauto.
  - rewrite get_state_run. cbv zeta.
    destruct (fake_state (self s)); [simpl; eauto|].
    destruct (server _ _) as [resp|e]; [|simpl; rewrite <- ?app_assoc; eauto].
    destruct (Z.eqb _ _); [|simpl; rewrite <- ?app_assoc; eauto].
    destruct (json resp) as [v|e]; [|simpl; eauto].
    destruct (find_level v) as [[x|]|e]; simpl; rewrite <- ?app_assoc; eauto.
    destruct (_ || _); simpl; rewrite <- ?app_assoc; eauto.
Qed.

(** X8: construction and first use.  [__init__] returns without raising, sends
    nothing, logs one INFO record, hands name and port to the base
    constructor and sets the attributes from its keywords alone, whatever
    they held before.  A command of the constructed plugin then goes to the
    host and port given, localhost and 8083 when left out, and to the device
    given; with a non-empty token among the keywords it carries the bearer
    header; constructed with [fake_state] true, a query sends nothing. *)
Theorem constructed_plugin_requests (a : InitArgs) (s0 : State Base) :
  let s := snd (__init__ super_init a s0) in
  fst (__init__ super_init a s0) = Val tt
  /\ sent s = sent s0
  /\ (exists msg, log s = log s0 ++ [(INFO, msg)])
  /\ super s = super_init (arg_name a) (arg_port a) (super s0)
  /\ (forall s1 : State Base, self (snd (__init__ super_init a s1)) = self s)
  /\ (forall cmd, exists rq,
        sent (snd (_ZwaveCmd server cmd s)) = sent s0 ++ [rq]
        /\ url rq = "http://" +:+ default "localhost" (arg_zwave_host a) +:+ ":"
                      +:+ str (default 8083 (arg_zwave_port a))
                      +:+ "/ZAutomation/api/v1/devices/" +:+ arg_device a
                      +:+ "/command/" +:+ cmd
        /\ (forall tok, arg_zwave_auth a = Some (Some tok) -> tok <> EmptyString ->
              headers rq = Some {[ "Authorization" := "Bearer ZWAYSession/" +:+ tok ]}
              /\ auth rq = None))
  /\ (arg_fake_state a = Some true ->
      sent (snd (get_state super_get_state server s)) = sent s0).
Proof.
  intros s. repeat (split; [first [reflexivity | now eexists]|]). split.
  - intros cmd. exists (request_for (self s) (command_url (self s) cmd)).
    split; [now rewrite ZwaveCmd_sent|].
    split; [now rewrite request_for_url|].
    intros tok Ha Hne.
    apply (proj1 (request_for_token_rule (self s) (command_url (self s) cmd)));
      [|assumption].
    subst s. simpl. now rewrite Ha.
  - intros Hf. rewrite get_state_sent. subst s. simpl. now rewrite Hf.
Qed.

(** X9: the two copies of the request code agree.  With [fake_state] off, the
    GET of a command and the GET of a state query carry the same headers and
    the same basic-auth pair, and the URL of the command is the URL of the
    query followed by /command/ and the command. *)
Theorem command_extends_query (cmd : string) (s : State Base) :
  fake_state (self s) = false ->
  exists rq q,
    sent (snd (_ZwaveCmd server cmd s)) = sent s ++ [rq]
    /\ sent (snd (get_state super_get_state server s)) = sent s ++ [q]
    /\ url rq = url q +:+ "/command/" +:+ cmd
    /\ headers rq = headers q
    /\ auth rq = auth q.
Proof.
  intros Hfake.
  exists (request_for (self s) (command_url (self s) cmd)),
         (request_for (self s) (device_url (self s))).
  split; [apply ZwaveCmd_sent|].
  split; [now rewrite get_state_sent, Hfake|].
  rewrite !request_for_url. split.
  - unfold command_url, device_url. now rewrite !append_assoc.
  - unfold request_for. now destruct (zwave_auth (self s)) as [[|c t]|].
Qed.

End Further.

(** A report whose [data] is null makes the query raise [TypeError], and the
    response behind it has status 200. *)
Lemma get_state_raises_only_after_200_witness :
  fst (get_state tracked (replying null_data) (start hall_light)) = Exn TypeError
  /\ exists resp,
       replying null_data [] hall_light_query = Responds resp
       /\ status_code resp = 200.
Proof.
  split; [reflexivity|].
  destruct (get_state_raises_only_after_200 tracked (replying null_data)
              (start hall_light) TypeError eq_refl)
    as [[H _] | (_ & rq & resp & _ & Hresp & Hs & _)]; [discriminate H|].
  exists resp. split; [exact Hresp | exact Hs].
Defined.

(** The answer on to a report of level open comes from a level on or open. *)
Lemma get_state_on_off_sound_witness :
  exists v x, has_level v x /\ (x = PyStr "on" \/ x = PyStr "open").
Proof.
  destruct (proj1 (get_state_on_off_sound tracked
                     (replying (report (level_body "open") (PyStr "open")))
                     (start hall_light) eq_refl) eq_refl)
    as (rq & resp & v & x & _ & _ & _ & _ & Hl & Hx).
  exists v, x. split; [exact Hl | exact Hx].
Defined.

(** A body that is the JSON array holding the string data raises [TypeError]. *)
Lemma get_state_body_not_object_witness :
  fst (get_state tracked
         (replying (mkResponse 200 ("[" +:+ quoted "data" +:+ "]")
                      (Val (PyList [PyStr "data"]))))
         (start hall_light)) = Exn TypeError.
Proof.
  apply (proj1 (get_state_body_not_object tracked
                  (replying (mkResponse 200 ("[" +:+ quoted "data" +:+ "]")
                               (Val (PyList [PyStr "data"]))))
                  (start hall_light) hall_light_query
                  (mkResponse 200 ("[" +:+ quoted "data" +:+ "]")
                     (Val (PyList [PyStr "data"])))
                  (PyList [PyStr "data"]) eq_refl eq_refl eq_refl eq_refl)).
  left. reflexivity.
Defined.

(** A report of the level unknown is logged at INFO as an unknown level, not
    as an error. *)
Lemma get_state_log_tells_failure_witness :
  last (log (snd (get_state tracked
                    (replying (report (level_body "unknown") (PyStr "unknown")))
                    (start hall_light))))
  = Some (INFO, [Lit "ZwavePlugin: unknown level: "; FVal (PyStr "unknown"); Lit " "]).
Proof.
  apply (proj1
           (proj2
              (proj2 (get_state_log_tells_failure tracked
                        (replying (report (level_body "unknown") (PyStr "unknown")))
                        (start hall_light) hall_light_query eq_refl eq_refl)
                 eq_refl _ eq_refl)
              (PyStr "unknown")
              (report_has_level (level_body "unknown") (PyStr "unknown") _ eq_refl)));
    discriminate.
Defined.

(** The command and the query of [hall_light] differ by the URL suffix only. *)
Lemma command_extends_query_witness :
  url hall_light_on = url hall_light_query +:+ "/command/" +:+ "on"
  /\ headers hall_light_on = headers hall_light_query.
Proof.
  destruct (command_extends_query tracked (replying command_done) "on"
              (start hall_light) eq_refl)
    as (rq & q & Hrq & Hq & Hurl & Hh & _).
  apply (app_inv_head []) in Hrq, Hq.
  injection Hrq as <-. injection Hq as <-.
  split; [exact Hurl | exact Hh].
Defined.
